(** * Orders service: validator, store and error taxonomy

    Shallow embedding of [src/src/validators/order_validator.rs],
    [src/src/utils/db_utils.rs] and [src/src/handlers/handlers.rs].

    - A Rust [u32] is an [N] (no arithmetic is done on ids or quantities,
      so no wrap-around arises).
    - A Rust [String] supplied by a client ([item], [status]) is a list of
      Unicode scalar values ([rstring]); [String::len] is its UTF-8 byte
      length and [str::trim] drops [char::is_whitespace] characters at
      both ends.
    - Messages built by the code from ASCII literals are [string]s.
    - The SQLite table is a list of rows; each SQL statement
      is one step of a state/error monad.  An environment [Env] says which
      statements fail with a [sqlx::Error] and how concurrent requests change
      the table between two statements of one operation. *)

From Stdlib Require Import List String Ascii NArith Arith Bool Lia.
Import ListNotations.
Open Scope string_scope.

(** ** Rust strings *)

Definition rstring := list N.

(** [char::is_whitespace]: the Unicode White_Space property. *)
Definition is_whitespace (c : N) : bool :=
  ((9 <=? c) && (c <=? 13))%N || (c =? 32)%N || (c =? 133)%N || (c =? 160)%N
  || (c =? 5760)%N || ((8192 <=? c) && (c <=? 8202))%N
  || (c =? 8232)%N || (c =? 8233)%N || (c =? 8239)%N || (c =? 8287)%N
  || (c =? 12288)%N.

(** UTF-8 encoded width of one scalar value. *)
Definition utf8_width (c : N) : nat :=
  if (c <? 128)%N then 1 else if (c <? 2048)%N then 2
  else if (c <? 65536)%N then 3 else 4.

(** [String::len]: the length in bytes. *)
Fixpoint str_len (s : rstring) : nat :=
  match s with
  | [] => 0
  | c :: r => utf8_width c + str_len r
  end.

Fixpoint trim_start (s : rstring) : rstring :=
  match s with
  | [] => []
  | c :: r => if is_whitespace c then trim_start r else s
  end.

Definition trim_end (s : rstring) : rstring := rev (trim_start (rev s)).

(** [str::trim] *)
Definition trim (s : rstring) : rstring := trim_end (trim_start s).

Definition is_empty (s : rstring) : bool :=
  match s with [] => true | _ => false end.

(** A string literal of the source, as a Rust string. *)
Definition lit (s : string) : rstring :=
  map (fun a => N_of_ascii a) (list_ascii_of_string s).

Fixpoint rstr_eqb (a b : rstring) : bool :=
  match a, b with
  | [], [] => true
  | x :: a', y :: b' => (x =? y)%N && rstr_eqb a' b'
  | _, _ => false
  end.

(** [[&str]::join] *)
Fixpoint join (sep : string) (l : list string) : string :=
  match l with
  | [] => ""
  | [x] => x
  | x :: r => x ++ sep ++ join sep r
  end.

(** Decimal rendering of an integer, as [format!("{}", n)] does. *)
Fixpoint dec_aux (fuel : nat) (n : N) (acc : string) : string :=
  match fuel with
  | O => acc
  | S f =>
      let d := String (ascii_of_N (48 + N.modulo n 10)) acc in
      if (n <? 10)%N then d else dec_aux f (N.div n 10) d
  end.

Definition to_decimal (n : N) : string := dec_aux (S (N.size_nat n)) n "".

(** ** Data model ([utils::Order]) *)

Record Order := mkOrder {
  id : N;
  item : rstring;
  status : rstring;
  quantity : N
}.

(** ** Errors ([validators::order_validator]) *)

Record ValidationError := mkValidationError {
  ve_error : string;
  ve_field : option string
}.

Record ServerError := mkServerError {
  se_error : string;
  se_message : string
}.

Inductive ApiError :=
| Validation (err : ValidationError)
| Server (err : ServerError)
| NotFound (message : string).

Inductive result (A E : Type) :=
| Ok (a : A)
| Err (e : E).
Arguments Ok {A E} a.
Arguments Err {A E} e.

(** ** Validator *)

Definition valid_statuses : list string :=
  ["pending"; "processing"; "shipped"; "delivered"; "cancelled"].

(** [valid_statuses.contains(&s)] *)
Definition contains_status (s : rstring) : bool :=
  existsb (fun v => rstr_eqb (lit v) s) valid_statuses.

Definition validate_order (order : Order) : result unit ValidationError :=
  if (id order =? 0)%N then
    Err (mkValidationError "Order ID must be greater than 0" (Some "id"))
  else if is_empty (trim (item order)) then
    Err (mkValidationError "Item name cannot be empty" (Some "item"))
  else if Nat.ltb 100 (str_len (item order)) then
    Err (mkValidationError "Item name cannot exceed 100 characters" (Some "item"))
  else if negb (contains_status (status order)) then
    Err (mkValidationError ("Status must be one of: " ++ join ", " valid_statuses)
                           (Some "status"))
  else if (quantity order =? 0)%N then
    Err (mkValidationError "Quantity must be greater than 0" (Some "quantity"))
  else if (1000 <? quantity order)%N then
    Err (mkValidationError "Quantity cannot exceed 1000" (Some "quantity"))
  else Ok tt.

Definition validate_status (s : rstring) : result unit ValidationError :=
  if negb (contains_status s) then
    Err (mkValidationError ("Status must be one of: " ++ join ", " valid_statuses)
                           (Some "status"))
  else Ok tt.

(** The six rules as the specification lists them (section 4.1): a rule is
    a test and the error reported when the test fails; the first failing
    rule decides.  Used to check [validate_order] against the spec. *)
Definition spec_rules : list ((Order -> bool) * ValidationError) :=
  [ (fun o => (0 <? id o)%N,
      mkValidationError "Order ID must be greater than 0" (Some "id"));
    (fun o => negb (is_empty (trim (item o))),
      mkValidationError "Item name cannot be empty" (Some "item"));
    (fun o => Nat.leb (str_len (item o)) 100,
      mkValidationError "Item name cannot exceed 100 characters" (Some "item"));
    (fun o => existsb (fun v => rstr_eqb (lit v) (status o))
                ["pending"; "processing"; "shipped"; "delivered"; "cancelled"],
      mkValidationError
        "Status must be one of: pending, processing, shipped, delivered, cancelled"
        (Some "status"));
    (fun o => (1 <=? quantity o)%N,
      mkValidationError "Quantity must be greater than 0" (Some "quantity"));
    (fun o => (quantity o <=? 1000)%N,
      mkValidationError "Quantity cannot exceed 1000" (Some "quantity")) ].

Fixpoint first_failure (rules : list ((Order -> bool) * ValidationError))
    (o : Order) : result unit ValidationError :=
  match rules with
  | [] => Ok tt
  | (test, e) :: r => if test o then first_failure r o else Err e
  end.

Definition validate_order_spec (o : Order) : result unit ValidationError :=
  first_failure spec_rules o.


(** ** The database ([utils::db_utils]) *)

(** The [orders] table: its rows.  [id] is the table's rowid, so SQLite
    returns rows by increasing id; the order of this list is not used by
    any statement below except through lookups by id, and properties of
    [SELECT]s over the whole table are stated up to membership. *)
Definition Table := list Order.

(** The [sqlx::Error]s a statement can raise. *)
Inductive SqlxError :=
| StorageFault
| PrimaryKeyViolation.

(** What the rest of the world does while one operation runs: [fault k]
    makes its [k]-th statement fail at the storage layer; [between k]
    is the change concurrent requests make to the table just before its
    [k]-th statement, for [k >= 1] (the first statement sees the table the
    operation was invoked on). *)
Record Env := mkEnv {
  fault : nat -> bool;
  between : nat -> Table -> Table
}.

Definition quiet : Env := mkEnv (fun _ => false) (fun _ t => t).

Definition no_faults (env : Env) : Prop := forall k, fault env k = false.
Definition no_interference (env : Env) : Prop := forall k t, between env k t = t.

(** The table and the number of statements run so far. *)
Record St := mkSt { tbl : Table; pc : nat }.

Definition M (A : Type) : Type := Env -> St -> St * result A ApiError.

Definition ret {A} (a : A) : M A := fun _ s => (s, Ok a).
Definition raise {A} (e : ApiError) : M A := fun _ s => (s, Err e).
Definition bind {A B} (m : M A) (k : A -> M B) : M B :=
  fun env s =>
    match m env s with
    | (s', Ok a) => k a env s'
    | (s', Err e) => (s', Err e)
    end.

Notation "x <- m ;; k" := (bind m (fun x => k))
  (at level 61, m at next level, right associativity).

(** Run an operation on a table, as one request does. *)
Definition run {A} (env : Env) (m : M A) (t : Table) : St * result A ApiError :=
  m env (mkSt t 0).

(** One SQL statement: [q] maps the table it sees to the new table and
    the statement's output, or to a [sqlx::Error]. *)
Definition exec {A} (q : Table -> result (Table * A) SqlxError)
    : M (result A SqlxError) :=
  fun env s =>
    let k := pc s in
    let t := match k with O => tbl s | _ => between env k (tbl s) end in
    if fault env k then (mkSt t (S k), Ok (Err StorageFault))
    else match q t with
         | Ok (t', a) => (mkSt t' (S k), Ok (Ok a))
         | Err e => (mkSt t (S k), Ok (Err e))
         end.

(** [.map_err(|_| e)?] *)
Definition try_sql {A} (m : M (result A SqlxError)) (e : ApiError) : M A :=
  r <- m ;;
  match r with
  | Ok a => ret a
  | Err _ => raise e
  end.

Definition matches (order_id : N) (o : Order) : bool := (id o =? order_id)%N.

(** [SELECT id, item, status, quantity FROM orders WHERE id = ?] with
    [fetch_optional]: the first matching row. *)
Definition sql_select (order_id : N) (t : Table)
    : result (Table * option Order) SqlxError :=
  Ok (t, find (matches order_id) t).

(** [INSERT INTO orders (id, item, status, quantity) VALUES (?, ?, ?, ?)];
    [id INTEGER PRIMARY KEY] refuses a second row with the same id. *)
Definition sql_insert (o : Order) (t : Table) : result (Table * nat) SqlxError :=
  if existsb (matches (id o)) t then Err PrimaryKeyViolation
  else Ok (app t [o], 1).

(** [UPDATE orders SET ... WHERE id = ?]: [f] rewrites a matching row;
    the output is [rows_affected()]. *)
Definition sql_update (f : Order -> Order) (order_id : N) (t : Table)
    : result (Table * nat) SqlxError :=
  Ok (map (fun r => if matches order_id r then f r else r) t,
      List.length (filter (matches order_id) t)).

(** [DELETE FROM orders WHERE id = ?] *)
Definition sql_delete (order_id : N) (t : Table) : result (Table * nat) SqlxError :=
  Ok (filter (fun r => negb (matches order_id r)) t,
      List.length (filter (matches order_id) t)).

Definition db_error (message : string) : ApiError :=
  Server (mkServerError "Database error" message).

Definition get_order_by_id (order_id : N) : M (option Order) :=
  try_sql (exec (sql_select order_id)) (db_error "Failed to retrieve order").

Definition create_order (order : Order) : M Order :=
  existing <- get_order_by_id (id order) ;;
  match existing with
  | Some _ =>
      raise (Validation (mkValidationError
        ("Order with ID " ++ to_decimal (id order) ++ " already exists") (Some "id")))
  | None =>
      _ <- try_sql (exec (sql_insert order)) (db_error "Failed to create order") ;;
      ret order
  end.

Definition update_order (order_id : N) (order : Order) : M Order :=
  rows <- try_sql
    (exec (sql_update (fun r => mkOrder (id r) (item order) (status order) (quantity order))
                      order_id))
    (db_error "Failed to update order") ;;
  if Nat.eqb rows 0 then raise (NotFound "Order not found")
  else ret (mkOrder order_id (item order) (status order) (quantity order)).

Definition update_order_status (order_id : N) (s : rstring) : M Order :=
  rows <- try_sql
    (exec (sql_update (fun r => mkOrder (id r) (item r) s (quantity r)) order_id))
    (db_error "Failed to update order status") ;;
  if Nat.eqb rows 0 then raise (NotFound "Order not found")
  else
    o <- get_order_by_id order_id ;;
    match o with
    | Some o => ret o
    | None => raise (NotFound "Order not found")
    end.

(** [SELECT id, item, status, quantity FROM orders] with [fetch_all]. *)
Definition sql_select_all (t : Table) : result (Table * list Order) SqlxError :=
  Ok (t, t).

Definition get_all_orders : M (list Order) :=
  try_sql (exec sql_select_all) (db_error "Failed to retrieve orders").

Definition delete_order (order_id : N) : M Order :=
  o <- get_order_by_id order_id ;;
  match o with
  | None => raise (NotFound "Order not found")
  | Some order =>
      rows <- try_sql (exec (sql_delete order_id)) (db_error "Failed to delete order") ;;
      if Nat.eqb rows 0 then raise (NotFound "Order not found")
      else ret order
  end.

(** ** Responses ([IntoResponse] impls) *)

#[local] Set Warnings "-register-all".

Inductive Json :=
| JNull
| JString (s : string)
| JObject (fields : list (string * Json)).

Definition json_opt (o : option string) : Json :=
  match o with None => JNull | Some s => JString s end.

(** An HTTP status code and a JSON body. *)
Definition Response := (N * Json)%type.

Definition validation_into_response (e : ValidationError) : Response :=
  (400%N, JObject [("error", JString (ve_error e)); ("field", json_opt (ve_field e))]).

Definition server_into_response (e : ServerError) : Response :=
  (500%N, JObject [("error", JString (se_error e)); ("message", JString (se_message e))]).

Definition api_into_response (e : ApiError) : Response :=
  match e with
  | Validation err => validation_into_response err
  | Server err => server_into_response err
  | NotFound message => (404%N, JObject [("error", JString message)])
  end.

(** ** Handlers ([handlers::handlers]) *)

(** [validate_order(&o)?] in a handler: [From<ValidationError> for ApiError]. *)
Definition check (r : result unit ValidationError) : M unit :=
  match r with
  | Ok u => ret u
  | Err e => raise (Validation e)
  end.

Definition get_orders : M (list Order) := get_all_orders.

Definition add_order (new_order : Order) : M Order :=
  _ <- check (validate_order new_order) ;;
  create_order new_order.

Definition get_order_by_id_handler (order_id : N) : M Order :=
  o <- get_order_by_id order_id ;;
  match o with
  | Some o => ret o
  | None => raise (NotFound "Order not found")
  end.

Definition update_order_by_id (order_id : N) (updated_order : Order) : M Order :=
  _ <- check (validate_order updated_order) ;;
  update_order order_id updated_order.

Definition update_order_status_handler (order_id : N) (s : rstring) : M Order :=
  _ <- check (validate_status s) ;;
  update_order_status order_id s.

Definition delete_order_by_id (order_id : N) : M Order :=
  delete_order order_id.

(** ** Sanity examples *)

Definition sample : Order := mkOrder 1 (lit "Test Item") (lit "pending") 5.

Example validate_sample : validate_order sample = Ok tt.
Proof. reflexivity. Qed.

Example create_then_get :
  snd (run quiet (create_order sample) []) = Ok sample /\
  snd (run quiet (get_order_by_id_handler 1) [sample]) = Ok sample.
Proof. split; reflexivity. Qed.

Example patch_status :
  snd (run quiet (update_order_status_handler 1 (lit "shipped")) [sample])
  = Ok (mkOrder 1 (lit "Test Item") (lit "shipped") 5).
Proof. reflexivity. Qed.

(** ** Validator lemmas *)

Lemma id_eqb_0 (n : N) : (n =? 0)%N = negb (0 <? n)%N.
Proof. destruct n; reflexivity. Qed.

Lemma quantity_eqb_0 (n : N) : (n =? 0)%N = negb (1 <=? n)%N.
Proof.
  destruct (N.eqb_spec n 0) as [->|H]; [reflexivity|].
  symmetry; apply negb_false_iff, N.leb_le; lia.
Qed.

Lemma N_ltb_negb_leb (a b : N) : (a <? b)%N = negb (b <=? a)%N.
Proof.
  destruct (N.ltb_spec a b), (N.leb_spec b a); reflexivity || lia.
Qed.

Lemma nat_ltb_negb_leb (a b : nat) : Nat.ltb a b = negb (Nat.leb b a).
Proof.
  destruct (Nat.ltb_spec a b), (Nat.leb_spec b a); reflexivity || lia.
Qed.

Lemma status_message :
  ("Status must be one of: " ++ join ", " valid_statuses)%string
  = "Status must be one of: pending, processing, shipped, delivered, cancelled".
Proof. reflexivity. Qed.

(** The conjunction of the six tests of [spec_rules]. *)
Definition all_rules_pass (o : Order) : bool :=
  forallb (fun r => fst r o) spec_rules.

(** ** Theorems *)

(** Claim C1: [validate_order] applies the six checks of the specification
    in their listed order, stopping at the first failure with exactly the
    listed message and field; it succeeds iff all six checks pass. *)
Theorem validate_order_fixed_order (o : Order) :
  validate_order o = validate_order_spec o /\
  (validate_order o = Ok tt <-> all_rules_pass o = true).
Proof.
  assert (Heq : validate_order o = validate_order_spec o).
  { unfold validate_order, validate_order_spec, spec_rules, first_failure.
    rewrite id_eqb_0, quantity_eqb_0, status_message,
      nat_ltb_negb_leb, (N_ltb_negb_leb 1000).
    unfold contains_status, valid_statuses.
    destruct (0 <? id o)%N, (is_empty (trim (item o))),
      (Nat.leb (str_len (item o)) 100),
      (existsb (fun v => rstr_eqb (lit v) (status o))
        ["pending"; "processing"; "shipped"; "delivered"; "cancelled"]), (1 <=? quantity o)%N, (quantity o <=? 1000)%N;
      reflexivity. }
  split; [exact Heq|].
  rewrite Heq. unfold validate_order_spec, all_rules_pass.
  induction spec_rules as [|[test e] r IH]; simpl.
  - split; reflexivity.
  - destruct (test o); simpl.
    + exact IH.
    + split; discriminate.
Qed.

Lemma is_empty_false (s : rstring) : is_empty s = false <-> s <> [].
Proof. destruct s; simpl; split; congruence. Qed.

(** An item whose leading space puts it one byte over the limit. *)
Definition padded_item : rstring := 32%N :: repeat 97%N 100.

Definition padded_order : Order := mkOrder 1 padded_item (lit "pending") 5.

(** Claim C9 as stated fails: [padded_order] has valid id, status and
    quantity and a trimmed item of length 100, yet [validate_order]
    rejects it, because the length bound is on the untrimmed item. *)
Lemma validate_item_trimmed_length_cex :
  ~ (forall o : Order,
       id o <> 0%N -> contains_status (status o) = true ->
       (1 <= quantity o <= 1000)%N ->
       (validate_order o = Ok tt <->
        (1 <= str_len (trim (item o)) <= 100)%nat)).
Proof.
  intro H.
  assert (Hlen : (1 <= str_len (trim (item padded_order)) <= 100)%nat)
    by (vm_compute; lia).
  assert (Hq : (1 <= quantity padded_order <= 1000)%N) by (vm_compute; split; discriminate).
  destruct (H padded_order ltac:(discriminate) eq_refl Hq) as [_ Hback].
  specialize (Hback Hlen).
  vm_compute in Hback. discriminate Hback.
Qed.

(** Claim C9 (amended): when id, status and quantity are valid,
    [validate_order] accepts the order iff the trimmed item is non-empty
    and the untrimmed item is at most 100 bytes long ([String::len]). *)
Theorem validate_item_rule (o : Order)
    (Hid : id o <> 0%N) (Hst : contains_status (status o) = true)
    (Hq : (1 <= quantity o <= 1000)%N) :
  validate_order o = Ok tt <->
  (trim (item o) <> [] /\ (str_len (item o) <= 100)%nat).
Proof.
  unfold validate_order.
  rewrite Hst; simpl negb.
  destruct (N.eqb_spec (id o) 0) as [E|_]; [contradiction|].
  destruct (N.eqb_spec (quantity o) 0) as [E|_]; [lia|].
  destruct (N.ltb_spec 1000 (quantity o)) as [E|_]; [lia|].
  destruct (is_empty (trim (item o))) eqn:Ee.
  - split; [discriminate|]. intros [Hne _].
    destruct (trim (item o)); [contradiction | discriminate].
  - apply is_empty_false in Ee.
    destruct (Nat.ltb_spec 100 (str_len (item o))).
    + split; [discriminate|]. intros [_ Hl]; lia.
    + split; [intros _; split; [exact Ee | lia] | reflexivity].
Qed.

Lemma validate_item_rule_witness :
  (id sample <> 0%N /\ contains_status (status sample) = true /\
   (1 <= quantity sample <= 1000)%N) /\
  (validate_order sample = Ok tt <->
   (trim (item sample) <> [] /\ (str_len (item sample) <= 100)%nat)).
Proof.
  split.
  - split; [discriminate|]. split; [reflexivity|]. vm_compute; split; discriminate.
  - apply validate_item_rule; [discriminate | reflexivity | vm_compute; split; discriminate].
Defined.

(** ** Table lemmas *)

Lemma matches_true (i : N) (o : Order) : matches i o = true <-> id o = i.
Proof. unfold matches. apply N.eqb_eq. Qed.

Lemma matches_false (i : N) (o : Order) : matches i o = false <-> id o <> i.
Proof. unfold matches. apply N.eqb_neq. Qed.

Lemma find_absent (i : N) (t : Table) :
  (forall x, In x t -> id x <> i) -> find (matches i) t = None.
Proof.
  induction t as [|r t IH]; intros H; simpl; [reflexivity|].
  rewrite (proj2 (matches_false i r) (H r (or_introl eq_refl))).
  apply IH. intros x Hx. apply H. right. exact Hx.
Qed.

Lemma count_absent (i : N) (t : Table) :
  (forall x, In x t -> id x <> i) -> List.length (filter (matches i) t) = 0.
Proof.
  induction t as [|r t IH]; intros H; simpl; [reflexivity|].
  rewrite (proj2 (matches_false i r) (H r (or_introl eq_refl))).
  apply IH. intros x Hx. apply H. right. exact Hx.
Qed.

Lemma find_count (i : N) (t : Table) (o : Order) :
  find (matches i) t = Some o -> List.length (filter (matches i) t) <> 0.
Proof.
  induction t as [|r t IH]; simpl; [discriminate|].
  destruct (matches i r); simpl; [lia|exact IH].
Qed.

Lemma find_some_id (i : N) (t : Table) (o : Order) :
  find (matches i) t = Some o -> In o t /\ id o = i.
Proof.
  intro H. destruct (find_some _ _ H) as [Hin Hm].
  split; [exact Hin | apply matches_true; exact Hm].
Qed.

Lemma find_unique (t : Table) (o : Order) :
  NoDup (map id t) -> In o t -> find (matches (id o)) t = Some o.
Proof.
  induction t as [|r t IH]; simpl; [contradiction|].
  intros Hnd Hin. inversion Hnd as [|? ? Hnotin Hnd']; subst.
  destruct Hin as [<-|Hin].
  - rewrite (proj2 (matches_true _ _) eq_refl). reflexivity.
  - destruct (matches (id o) r) eqn:E.
    + apply matches_true in E. exfalso. apply Hnotin.
      rewrite E. apply in_map. exact Hin.
    + apply IH; assumption.
Qed.

Lemma find_update (i : N) (f : Order -> Order) (t : Table) :
  (forall r, id (f r) = id r) ->
  find (matches i) (map (fun r => if matches i r then f r else r) t)
  = option_map f (find (matches i) t).
Proof.
  intros Hf. induction t as [|r t IH]; simpl; [reflexivity|].
  destruct (matches i r) eqn:E.
  - unfold matches in *. rewrite Hf, E. reflexivity.
  - rewrite E. exact IH.
Qed.

Lemma find_app_new (i : N) (t : Table) (o : Order) :
  (forall x, In x t -> id x <> i) -> id o = i ->
  find (matches i) (app t [o]) = Some o.
Proof.
  intros H Ho. induction t as [|r t IH]; simpl.
  - rewrite (proj2 (matches_true _ _) Ho). reflexivity.
  - rewrite (proj2 (matches_false i r) (H r (or_introl eq_refl))).
    apply IH. intros x Hx. apply H. right. exact Hx.
Qed.

Lemma existsb_absent (i : N) (t : Table) :
  (forall x, In x t -> id x <> i) -> existsb (matches i) t = false.
Proof.
  intro H. apply not_true_iff_false. intro E.
  apply existsb_exists in E as [x [Hx Hm]].
  apply matches_true in Hm. exact (H x Hx Hm).
Qed.

Lemma find_delete (i : N) (t : Table) :
  find (matches i) (filter (fun r => negb (matches i r)) t) = None.
Proof.
  induction t as [|r t IH]; simpl; [reflexivity|].
  destruct (matches i r) eqn:E; simpl; [exact IH|].
  rewrite E. exact IH.
Qed.

(** Unfolds the monad and the statements of an operation. *)
Ltac run_op :=
  unfold run, add_order, get_order_by_id_handler, update_order_by_id,
    update_order_status_handler, delete_order_by_id, create_order,
    update_order, update_order_status, delete_order, get_order_by_id,
    get_orders, get_all_orders,
    check, try_sql, exec, bind, ret, raise; cbn [pc tbl].

Example to_decimal_samples :
  to_decimal 0 = "0" /\ to_decimal 7 = "7" /\ to_decimal 4294967295 = "4294967295".
Proof. repeat split; reflexivity. Qed.

(** Absent ids, shared by the claims on [NotFound]. *)
Lemma update_order_absent (env : Env) (t : Table) (i : N) (body : Order) :
  no_faults env -> (forall x, In x t -> id x <> i) ->
  snd (run env (update_order i body) t) = Err (NotFound "Order not found").
Proof.
  intros Hf Habs. run_op. rewrite (Hf 0). unfold sql_update.
  rewrite (count_absent _ _ Habs). reflexivity.
Qed.

Lemma update_order_status_absent (env : Env) (t : Table) (i : N) (s : rstring) :
  no_faults env -> (forall x, In x t -> id x <> i) ->
  snd (run env (update_order_status i s) t) = Err (NotFound "Order not found").
Proof.
  intros Hf Habs. run_op. rewrite (Hf 0). unfold sql_update.
  rewrite (count_absent _ _ Habs). reflexivity.
Qed.

Lemma delete_order_absent (env : Env) (t : Table) (i : N) :
  no_faults env -> (forall x, In x t -> id x <> i) ->
  snd (run env (delete_order i) t) = Err (NotFound "Order not found").
Proof.
  intros Hf Habs. run_op. rewrite (Hf 0). unfold sql_select.
  rewrite (find_absent _ _ Habs). reflexivity.
Qed.

(** Claim C2: creating an order whose id is already stored fails with the
    [Validation] error "Order with ID {id} already exists" on field [id],
    and the table is left exactly as it was (so ids stay unique). *)
Theorem create_order_duplicate (env : Env) (t : Table) (o o' : Order)
    (Hf : no_faults env) (Hin : In o' t) (Hid : id o' = id o) :
  run env (create_order o) t =
    (mkSt t 1,
     Err (Validation (mkValidationError
       ("Order with ID " ++ to_decimal (id o) ++ " already exists") (Some "id"))))
  /\ (NoDup (map id t) -> NoDup (map id (tbl (fst (run env (create_order o) t))))).
Proof.
  assert (Hrun : run env (create_order o) t =
    (mkSt t 1,
     Err (Validation (mkValidationError
       ("Order with ID " ++ to_decimal (id o) ++ " already exists") (Some "id"))))).
  { run_op. rewrite (Hf 0). unfold sql_select.
    destruct (find (matches (id o)) t) eqn:E; [reflexivity|].
    exfalso. eapply (find_none _ _ E) in Hin.
    apply matches_false in Hin. contradiction. }
  split; [exact Hrun|]. rewrite Hrun. simpl. tauto.
Qed.

Lemma create_order_duplicate_witness :
  (no_faults quiet /\ In sample [sample] /\ id sample = id sample) /\
  run quiet (create_order sample) [sample] =
    (mkSt [sample] 1,
     Err (Validation (mkValidationError
       ("Order with ID " ++ to_decimal (id sample) ++ " already exists") (Some "id")))).
Proof.
  split; [split; [intro k; reflexivity | split; [left; reflexivity | reflexivity]]|].
  apply (create_order_duplicate quiet [sample] sample sample);
    [intro k; reflexivity | left; reflexivity | reflexivity].
Defined.

(** Claim C3: on a table with no order of id [id o], and with the store
    working and no concurrent writer, [create_order o] succeeds, returns
    [o] unchanged, and a following [get_order_by_id (id o)] returns [o]. *)
Theorem create_get_roundtrip (env : Env) (t : Table) (o : Order)
    (Hf : no_faults env) (Hi : no_interference env)
    (Hnew : forall x, In x t -> id x <> id o) :
  run env (create_order o) t = (mkSt (app t [o]) 2, Ok o) /\
  snd (run env (get_order_by_id (id o)) (app t [o])) = Ok (Some o).
Proof.
  split.
  - run_op. rewrite (Hf 0). unfold sql_select.
    rewrite (find_absent _ _ Hnew). cbn.
    rewrite (Hf 1), (Hi 1). unfold sql_insert.
    rewrite (existsb_absent _ _ Hnew). reflexivity.
  - run_op. rewrite (Hf 0). unfold sql_select.
    rewrite (find_app_new _ _ _ Hnew eq_refl). reflexivity.
Qed.

Lemma create_get_roundtrip_witness :
  (no_faults quiet /\ no_interference quiet /\
   (forall x, In x [sample] -> id x <> 2%N)) /\
  run quiet (create_order (mkOrder 2 (lit "Box") (lit "shipped") 3)) [sample]
    = (mkSt (app [sample] [mkOrder 2 (lit "Box") (lit "shipped") 3]) 2,
       Ok (mkOrder 2 (lit "Box") (lit "shipped") 3)) /\
  snd (run quiet (get_order_by_id 2) (app [sample] [mkOrder 2 (lit "Box") (lit "shipped") 3]))
    = Ok (Some (mkOrder 2 (lit "Box") (lit "shipped") 3)).
Proof.
  split.
  - split; [intro k; reflexivity|]. split; [intros k t; reflexivity|].
    intros x [<-|[]]; discriminate.
  - apply (create_get_roundtrip quiet [sample] (mkOrder 2 (lit "Box") (lit "shipped") 3));
      [intro k; reflexivity | intros k t; reflexivity |].
    intros x [<-|[]]; discriminate.
Defined.

(** The row rewrite of [UPDATE orders SET status = ? WHERE id = ?]. *)
Definition set_status (s : rstring) (r : Order) : Order :=
  mkOrder (id r) (item r) s (quantity r).

(** Claim C4: with the store working and no concurrent writer, when an
    order [o] with id [i] is stored (ids being unique),
    [update_order_status i s] succeeds for any [s] and returns [o] with
    status [s] and its id, item and quantity unchanged; the table holds
    that row.  When no order has id [i], it fails with [NotFound]. *)
Theorem update_status_frame (env : Env) (t : Table) (i : N) (s : rstring)
    (Hf : no_faults env) (Hi : no_interference env) :
  (forall o, NoDup (map id t) -> In o t -> id o = i ->
     run env (update_order_status i s) t =
       (mkSt (map (fun r => if matches i r then set_status s r else r) t) 2,
        Ok (mkOrder (id o) (item o) s (quantity o)))) /\
  ((forall x, In x t -> id x <> i) ->
     snd (run env (update_order_status i s) t) = Err (NotFound "Order not found")).
Proof.
  split.
  - intros o Hnd Hin Hid. subst i.
    pose proof (find_unique t o Hnd Hin) as Hfind.
    run_op. rewrite (Hf 0). unfold sql_update.
    destruct (Nat.eqb_spec (List.length (filter (matches (id o)) t)) 0) as [E|_].
    { exfalso. exact (find_count _ _ _ Hfind E). }
    cbn. rewrite (Hf 1), (Hi 1). unfold sql_select.
    change (fun r => if matches (id o) r then mkOrder (id r) (item r) s (quantity r) else r)
      with (fun r => if matches (id o) r then set_status s r else r).
    rewrite (find_update (id o) (set_status s) t (fun r => eq_refl)), Hfind.
    reflexivity.
  - exact (update_order_status_absent env t i s Hf).
Qed.

Lemma update_status_frame_witness :
  (no_faults quiet /\ no_interference quiet) /\
  run quiet (update_order_status 1 (lit "shipped")) [sample] =
    (mkSt (map (fun r => if matches 1 r then set_status (lit "shipped") r else r) [sample]) 2,
     Ok (mkOrder (id sample) (item sample) (lit "shipped") (quantity sample))).
Proof.
  split; [split; [intro k; reflexivity | intros k t; reflexivity]|].
  apply (proj1 (update_status_frame quiet [sample] 1 (lit "shipped")
                  (fun k => eq_refl) (fun k t => eq_refl)) sample).
  - constructor; [intros []|constructor].
  - left; reflexivity.
  - reflexivity.
Defined.

(** Claim C5: with the store working, [delete_order i] fails with
    [NotFound] when no order has id [i]; when the stored order [o] has id
    [i] (ids unique, no concurrent writer) it returns [o] as it was before
    removal and a following [get_order_by_id i] finds nothing; and when a
    concurrent request removes the row between the read and the [DELETE],
    so that the [DELETE] affects no row, the failure is [NotFound], not a
    server error. *)
Theorem delete_order_snapshot (env : Env) (t : Table) (i : N)
    (Hf : no_faults env) :
  ((forall x, In x t -> id x <> i) ->
     snd (run env (delete_order i) t) = Err (NotFound "Order not found")) /\
  (forall o, NoDup (map id t) -> In o t -> id o = i -> no_interference env ->
     exists st', run env (delete_order i) t = (st', Ok o) /\
                 snd (run env (get_order_by_id i) (tbl st')) = Ok None) /\
  (forall o, find (matches i) t = Some o ->
     (forall x, In x (between env 1 t) -> id x <> i) ->
     snd (run env (delete_order i) t) = Err (NotFound "Order not found")).
Proof.
  split; [|split].
  - exact (delete_order_absent env t i Hf).
  - intros o Hnd Hin Hid Hi. subst i.
    pose proof (find_unique t o Hnd Hin) as Hfind.
    eexists. split.
    + run_op. rewrite (Hf 0). unfold sql_select. rewrite Hfind. cbn.
      rewrite (Hf 1), (Hi 1). unfold sql_delete.
      destruct (Nat.eqb_spec (List.length (filter (matches (id o)) t)) 0) as [E|_].
      { exfalso. exact (find_count _ _ _ Hfind E). }
      reflexivity.
    + run_op. rewrite (Hf 0). unfold sql_select. cbn.
      rewrite find_delete. reflexivity.
  - intros o Hfind Hgone. run_op. rewrite (Hf 0). unfold sql_select.
    rewrite Hfind. cbn. rewrite (Hf 1). unfold sql_delete.
    rewrite (count_absent _ _ Hgone). reflexivity.
Qed.

(** A concurrent request that deletes order 1. *)
Definition racing_delete : Env :=
  mkEnv (fun _ => false)
        (fun _ t => filter (fun r => negb (matches 1 r)) t).

Lemma delete_order_snapshot_witness :
  no_faults racing_delete /\
  find (matches 1) [sample] = Some sample /\
  (forall x, In x (between racing_delete 1 [sample]) -> id x <> 1%N) /\
  snd (run racing_delete (delete_order 1) [sample]) = Err (NotFound "Order not found").
Proof.
  split; [intro k; reflexivity|]. split; [reflexivity|].
  split; [intros x []|].
  apply (proj2 (proj2 (delete_order_snapshot racing_delete [sample] 1
                         (fun k => eq_refl))) sample);
    [reflexivity | intros x []].
Defined.

(** The row rewrite of [UPDATE orders SET item = ?, status = ?, quantity = ?
    WHERE id = ?]. *)
Definition set_fields (body : Order) (r : Order) : Order :=
  mkOrder (id r) (item body) (status body) (quantity body).

(** Claim C6: whenever [update_order pid body] succeeds, the returned order
    is [body] with id [pid], the matching rows take the body's item, status
    and quantity, at least one stored row has id [pid], and every stored row
    with id [pid] equals the returned order (the body's id is ignored).
    With the store working and no row of id [pid], it fails with
    [NotFound]. *)
Theorem update_order_replaces (env : Env) (t : Table) (pid : N) (body : Order) :
  (forall st' r, run env (update_order pid body) t = (st', Ok r) ->
     r = mkOrder pid (item body) (status body) (quantity body) /\
     tbl st' = map (fun x => if matches pid x then set_fields body x else x) t /\
     (exists x, In x (tbl st') /\ id x = pid) /\
     (forall x, In x (tbl st') -> id x = pid -> x = r)) /\
  (no_faults env -> (forall x, In x t -> id x <> pid) ->
     snd (run env (update_order pid body) t) = Err (NotFound "Order not found")).
Proof.
  split.
  - intros st' r. run_op. destruct (fault env 0); [discriminate|].
    unfold sql_update.
    destruct (Nat.eqb_spec (List.length (filter (matches pid) t)) 0) as [E|E];
      [discriminate|].
    intros H. injection H as <- <-. cbn [tbl].
    split; [reflexivity|]. split; [reflexivity|]. split.
    + destruct (find (matches pid) t) as [y|] eqn:Hy.
      2:{ exfalso. apply E. apply count_absent. intros x Hx.
          apply matches_false. exact (find_none _ _ Hy x Hx). }
      apply find_some_id in Hy as [Hy Hyid].
      exists (set_fields body y). split; [|exact Hyid].
      apply in_map_iff. exists y. split; [|exact Hy].
      rewrite (proj2 (matches_true _ _) Hyid). reflexivity.
    + intros x Hx Hxid. apply in_map_iff in Hx as [y [Hy _]].
      destruct (matches pid y) eqn:Ey.
      * subst x. apply matches_true in Ey. unfold set_fields. rewrite Ey. reflexivity.
      * subst x. apply matches_false in Ey. contradiction.
  - exact (update_order_absent env t pid body).
Qed.

Lemma update_order_replaces_witness :
  let body := mkOrder 9 (lit "Updated Item") (lit "processing") 2 in
  run quiet (update_order 1 body) [sample]
    = (mkSt [set_fields body sample] 1, Ok (mkOrder 1 (item body) (status body) (quantity body))) /\
  mkOrder 1 (item body) (status body) (quantity body)
    = mkOrder 1 (item body) (status body) (quantity body) /\
  [set_fields body sample]
    = map (fun x => if matches 1 x then set_fields body x else x) [sample].
Proof.
  intro body. split; [reflexivity|].
  destruct (proj1 (update_order_replaces quiet [sample] 1 body)
              (mkSt [set_fields body sample] 1)
              (mkOrder 1 (item body) (status body) (quantity body)) eq_refl)
    as [Hr [Ht _]].
  split; [exact Hr | exact Ht].
Defined.

(** Claim C7: every [ApiError] is one of three kinds, and each is turned
    into a fixed status and body shape: [Validation] into 400 with
    [{error, field}], [NotFound] into 404 with [{error}], [Server] into
    500 with [{error, message}]. *)
Theorem error_taxonomy (e : ApiError) :
  (exists v, e = Validation v /\
     api_into_response e =
       (400%N, JObject [("error", JString (ve_error v)); ("field", json_opt (ve_field v))]))
  \/ (exists m, e = NotFound m /\
     api_into_response e = (404%N, JObject [("error", JString m)]))
  \/ (exists se, e = Server se /\
     api_into_response e =
       (500%N, JObject [("error", JString (se_error se)); ("message", JString (se_message se))])).
Proof.
  destruct e as [v|se|m].
  - left. exists v. split; reflexivity.
  - right; right. exists se. split; reflexivity.
  - right; left. exists m. split; reflexivity.
Qed.

(** Claim C8: with the store working and no order of id [i], the
    get-by-id handler, [update_order], [update_order_status] and
    [delete_order] all fail with [NotFound "Order not found"]. *)
Theorem absent_id_not_found (env : Env) (t : Table) (i : N) (body : Order)
    (s : rstring) (Hf : no_faults env) (Habs : forall x, In x t -> id x <> i) :
  snd (run env (get_order_by_id_handler i) t) = Err (NotFound "Order not found") /\
  snd (run env (update_order i body) t) = Err (NotFound "Order not found") /\
  snd (run env (update_order_status i s) t) = Err (NotFound "Order not found") /\
  snd (run env (delete_order i) t) = Err (NotFound "Order not found").
Proof.
  split; [|split; [|split]].
  - run_op. rewrite (Hf 0). unfold sql_select.
    rewrite (find_absent _ _ Habs). reflexivity.
  - exact (update_order_absent env t i body Hf Habs).
  - exact (update_order_status_absent env t i s Hf Habs).
  - exact (delete_order_absent env t i Hf Habs).
Qed.

Lemma absent_id_not_found_witness :
  (no_faults quiet /\ (forall x, In x [sample] -> id x <> 2%N)) /\
  snd (run quiet (get_order_by_id_handler 2) [sample]) = Err (NotFound "Order not found") /\
  snd (run quiet (update_order 2 sample) [sample]) = Err (NotFound "Order not found") /\
  snd (run quiet (update_order_status 2 (lit "shipped")) [sample])
    = Err (NotFound "Order not found") /\
  snd (run quiet (delete_order 2) [sample]) = Err (NotFound "Order not found").
Proof.
  split; [split; [intro k; reflexivity | intros x [<-|[]]; discriminate]|].
  apply (absent_id_not_found quiet [sample] 2 sample (lit "shipped"));
    [intro k; reflexivity | intros x [<-|[]]; discriminate].
Defined.

(** Claim C10: [PUT /orders/{id}] validates the whole body, its id
    included, before touching the store: a body with id 0 is refused with
    the [Validation] error "Order ID must be greater than 0" on field [id]
    (status 400), whatever the path id, and no statement is run. *)
Theorem put_validates_body_id (env : Env) (t : Table) (pid : N)
    (it st : rstring) (q : N) :
  run env (update_order_by_id pid (mkOrder 0 it st q)) t =
    (mkSt t 0,
     Err (Validation (mkValidationError "Order ID must be greater than 0" (Some "id"))))
  /\ fst (api_into_response
            (Validation (mkValidationError "Order ID must be greater than 0" (Some "id"))))
     = 400%N.
Proof. split; reflexivity. Qed.

(** * Further properties of the code *)

(** ** Strings *)

Lemma trim_start_nil (s : rstring) :
  trim_start s = [] <-> forallb is_whitespace s = true.
Proof.
  induction s as [|c r IH]; simpl; [tauto|].
  destruct (is_whitespace c); simpl; [exact IH|].
  split; discriminate.
Qed.

Lemma trim_start_head (s : rstring) (c : N) (r : rstring) :
  trim_start s = c :: r -> is_whitespace c = false.
Proof.
  induction s as [|d s IH]; simpl; [discriminate|].
  destruct (is_whitespace d) eqn:E; [exact IH|].
  intro H. injection H as -> _. exact E.
Qed.

Lemma forallb_rev {A} (f : A -> bool) (l : list A) :
  forallb f (rev l) = forallb f l.
Proof.
  induction l as [|x l IH]; simpl; [reflexivity|].
  rewrite forallb_app, IH. simpl. rewrite andb_true_r, andb_comm. reflexivity.
Qed.

Lemma is_empty_rev (s : rstring) : is_empty (rev s) = is_empty s.
Proof.
  destruct s as [|c r]; simpl; [reflexivity|].
  destruct (rev r); reflexivity.
Qed.

(** [s.trim().is_empty()] holds exactly when every character is whitespace. *)
Lemma trim_is_empty (s : rstring) :
  is_empty (trim s) = forallb is_whitespace s.
Proof.
  unfold trim, trim_end. rewrite is_empty_rev.
  destruct (trim_start s) as [|c r] eqn:E.
  - simpl. symmetry. apply trim_start_nil. exact E.
  - pose proof (trim_start_head _ _ _ E) as Hc.
    destruct (forallb is_whitespace s) eqn:F.
    { apply trim_start_nil in F. congruence. }
    destruct (trim_start (rev (c :: r))) eqn:G; [|reflexivity].
    apply trim_start_nil in G. rewrite forallb_rev in G. simpl in G.
    rewrite Hc in G. discriminate.
Qed.

Lemma str_len_repeat (c : N) (n : nat) :
  str_len (repeat c n) = n * utf8_width c.
Proof. induction n as [|n IH]; simpl; lia. Qed.

Lemma forallb_repeat_nonws (c : N) (n : nat) :
  is_whitespace c = false -> forallb is_whitespace (repeat c n) = Nat.eqb n 0.
Proof. intro Hc. destruct n; simpl; [reflexivity|]. rewrite Hc. reflexivity. Qed.

Lemma rstr_eqb_eq (a b : rstring) : rstr_eqb a b = true <-> a = b.
Proof.
  revert b. induction a as [|x a IH]; intros [|y b]; simpl;
    try (split; congruence).
  rewrite andb_true_iff, N.eqb_eq, IH. split.
  - intros [-> ->]. reflexivity.
  - intro H. injection H as -> ->. split; reflexivity.
Qed.

Lemma contains_status_in (s : rstring) :
  contains_status s = true <-> In s (map lit valid_statuses).
Proof.
  unfold contains_status. rewrite existsb_exists, in_map_iff.
  split; intros [v [H1 H2]]; exists v.
  - apply rstr_eqb_eq in H2. split; [exact H2 | exact H1].
  - split; [exact H2 | apply rstr_eqb_eq; exact H1].
Qed.

Definition status_error : ValidationError :=
  mkValidationError "Status must be one of: pending, processing, shipped, delivered, cancelled"
                    (Some "status").

(** ** Validator *)

(** An item made only of whitespace, in the sense of [char::is_whitespace]
    (so also tabs, newlines, no-break spaces, ideographic spaces), or the
    empty item, is refused as empty; any other item passes that check. *)
Theorem item_whitespace_only_rejected (o : Order) (Hid : id o <> 0%N) :
  validate_order o = Err (mkValidationError "Item name cannot be empty" (Some "item"))
  <-> forallb is_whitespace (item o) = true.
Proof.
  unfold validate_order. rewrite trim_is_empty.
  destruct (N.eqb_spec (id o) 0) as [E|_]; [contradiction|].
  destruct (forallb is_whitespace (item o)); [tauto|].
  split; [|discriminate]. intro H.
  destruct (Nat.ltb 100 (str_len (item o))); [discriminate|].
  destruct (negb (contains_status (status o))); [discriminate|].
  destruct (quantity o =? 0)%N; [discriminate|].
  destruct (1000 <? quantity o)%N; discriminate.
Qed.

Lemma item_whitespace_only_rejected_witness :
  id (mkOrder 3 [9%N; 12288%N; 160%N] (lit "pending") 1) <> 0%N /\
  validate_order (mkOrder 3 [9%N; 12288%N; 160%N] (lit "pending") 1)
    = Err (mkValidationError "Item name cannot be empty" (Some "item")).
Proof.
  split; [discriminate|].
  apply (item_whitespace_only_rejected (mkOrder 3 [9%N; 12288%N; 160%N] (lit "pending") 1));
    [discriminate | reflexivity].
Defined.

(** The item limit counts UTF-8 bytes: an item of [n] copies of one
    non-whitespace character of width [w] bytes, in an otherwise valid
    order, is accepted iff [1 <= n] and [n * w <= 100] (so at most 50
    two-byte characters such as [é], 25 four-byte ones). *)
Theorem item_limit_counts_bytes (o : Order) (c : N) (n : nat)
    (Hc : is_whitespace c = false) (Hitem : item o = repeat c n)
    (Hid : id o <> 0%N) (Hst : contains_status (status o) = true)
    (Hq : (1 <= quantity o <= 1000)%N) :
  validate_order o = Ok tt <-> (1 <= n /\ n * utf8_width c <= 100)%nat.
Proof.
  unfold validate_order. rewrite trim_is_empty, Hitem, Hst, str_len_repeat,
    (forallb_repeat_nonws c n Hc). simpl negb.
  destruct (N.eqb_spec (id o) 0) as [E|_]; [contradiction|].
  destruct (N.eqb_spec (quantity o) 0) as [E|_]; [lia|].
  destruct (N.ltb_spec 1000 (quantity o)) as [E|_]; [lia|].
  destruct (Nat.eqb_spec n 0) as [->|Hn].
  - split; [discriminate | lia].
  - destruct (Nat.ltb_spec 100 (n * utf8_width c)).
    + split; [discriminate | lia].
    + split; [intros _; lia | reflexivity].
Qed.

Definition accented_order (n : nat) : Order :=
  mkOrder 1 (repeat (233%N) n) (lit "pending") 1.

Lemma item_limit_counts_bytes_witness :
  (is_whitespace 233 = false /\ item (accented_order 51) = repeat (233%N) 51 /\
   id (accented_order 51) <> 0%N /\ contains_status (status (accented_order 51)) = true /\
   (1 <= quantity (accented_order 51) <= 1000)%N) /\
  (validate_order (accented_order 51) = Ok tt <->
   (1 <= 51 /\ 51 * utf8_width 233 <= 100)%nat).
Proof.
  split.
  - split; [reflexivity|]. split; [reflexivity|]. split; [discriminate|].
    split; [reflexivity|]. vm_compute; split; discriminate.
  - apply (item_limit_counts_bytes (accented_order 51) 233 51);
      [reflexivity | reflexivity | discriminate | reflexivity
      | vm_compute; split; discriminate].
Defined.

(** [validate_status] accepts exactly the five statuses, compared exactly
    (case-sensitive), and otherwise reports the fixed status error. *)
Theorem validate_status_exact (s : rstring) :
  (validate_status s = Ok tt <-> In s (map lit valid_statuses)) /\
  (~ In s (map lit valid_statuses) -> validate_status s = Err status_error).
Proof.
  unfold validate_status. rewrite <- contains_status_in.
  destruct (contains_status s); simpl.
  - split; [tauto|]. intro H. exfalso. apply H. reflexivity.
  - split; [split; discriminate|]. intros _. reflexivity.
Qed.

(** [validate_order] and [validate_status] agree on the status: an
    accepted order has an accepted status, and an order whose id and item
    pass but whose status fails is refused with exactly the error of
    [validate_status]. *)
Theorem validate_order_status_agrees (o : Order) :
  (validate_order o = Ok tt -> validate_status (status o) = Ok tt) /\
  (forall e, id o <> 0%N -> is_empty (trim (item o)) = false ->
     (str_len (item o) <= 100)%nat ->
     validate_status (status o) = Err e -> validate_order o = Err e).
Proof.
  unfold validate_order, validate_status. split.
  - destruct (id o =? 0)%N, (is_empty (trim (item o))),
      (Nat.ltb 100 (str_len (item o))), (contains_status (status o));
      simpl; congruence.
  - intros e Hid Hit Hlen.
    destruct (N.eqb_spec (id o) 0) as [E|_]; [contradiction|].
    rewrite Hit.
    destruct (Nat.ltb_spec 100 (str_len (item o))); [lia|].
    destruct (negb (contains_status (status o))); [exact (fun H => H)|discriminate].
Qed.

Lemma validate_order_status_agrees_witness :
  let o := mkOrder 1 (lit "Box") (lit "PENDING") 1 in
  id o <> 0%N /\ is_empty (trim (item o)) = false /\ (str_len (item o) <= 100)%nat /\
  validate_status (status o) = Err status_error /\
  validate_order o = Err status_error.
Proof.
  intro o. split; [discriminate|]. split; [reflexivity|]. split; [vm_compute; lia|].
  split; [reflexivity|].
  apply (proj2 (validate_order_status_agrees o) status_error);
    [discriminate | reflexivity | vm_compute; lia | reflexivity].
Defined.

(** ** Store invariants *)

(** [m] keeps [P] of the table, provided concurrent requests keep it. *)
Definition Preserves (P : Table -> Prop) {A} (m : M A) : Prop :=
  forall env, (forall k t, P t -> P (between env k t)) ->
  forall s, P (tbl s) -> P (tbl (fst (m env s))).

Section Preservation.
Variable P : Table -> Prop.

Lemma pres_ret {A} (a : A) : Preserves P (ret a).
Proof. intros env _ s H. exact H. Qed.

Lemma pres_raise {A} (e : ApiError) : Preserves P (@raise A e).
Proof. intros env _ s H. exact H. Qed.

Lemma pres_bind {A B} (m : M A) (k : A -> M B) :
  Preserves P m -> (forall a, Preserves P (k a)) -> Preserves P (bind m k).
Proof.
  intros Hm Hk env Henv s Hs. unfold bind.
  pose proof (Hm env Henv s Hs) as H1.
  destruct (m env s) as [s' [a|e]]; simpl in *; [apply Hk|]; assumption.
Qed.

Lemma pres_exec {A} (q : Table -> result (Table * A) SqlxError) :
  (forall t t' a, P t -> q t = Ok (t', a) -> P t') -> Preserves P (exec q).
Proof.
  intros Hq env Henv [t k] Hs. unfold exec. cbn [tbl pc] in *.
  assert (Ht : P (match k with O => t | S _ => between env k t end))
    by (destruct k; [exact Hs | apply Henv; exact Hs]).
  destruct (fault env k); [exact Ht|].
  destruct (q _) as [[t' a]|e] eqn:E; simpl; [exact (Hq _ _ _ Ht E) | exact Ht].
Qed.

Lemma pres_try_sql {A} (m : M (result A SqlxError)) (e : ApiError) :
  Preserves P m -> Preserves P (try_sql m e).
Proof.
  intros Hm. unfold try_sql. apply pres_bind; [exact Hm|].
  intros [a|x]; [apply pres_ret | apply pres_raise].
Qed.

Lemma pres_check (r : result unit ValidationError) : Preserves P (check r).
Proof. destruct r; [apply pres_ret | apply pres_raise]. Qed.

End Preservation.

Definition ids_unique (t : Table) : Prop := NoDup (map id t).

Lemma ids_unique_insert (t : Table) (o : Order) :
  ids_unique t -> existsb (matches (id o)) t = false -> ids_unique (app t [o]).
Proof.
  unfold ids_unique. intros Hnd Hex. rewrite map_app. simpl.
  apply NoDup_app; [exact Hnd | constructor; [intros []|constructor] |].
  intros x Hx [<-|[]]. apply in_map_iff in Hx as [y [Hy Hin]].
  assert (existsb (matches (id o)) t = true) as C
    by (apply existsb_exists; exists y; split; [exact Hin | apply matches_true; exact Hy]).
  congruence.
Qed.

Lemma ids_unique_update (f : Order -> Order) (i : N) (t : Table) :
  (forall r, id (f r) = id r) -> ids_unique t ->
  ids_unique (map (fun r => if matches i r then f r else r) t).
Proof.
  intros Hf. unfold ids_unique. rewrite map_map.
  replace (map (fun x => id (if matches i x then f x else x)) t) with (map id t);
    [exact (fun H => H)|].
  apply map_ext. intro r. destruct (matches i r); [symmetry; apply Hf | reflexivity].
Qed.

Lemma ids_unique_filter (p : Order -> bool) (t : Table) :
  ids_unique t -> ids_unique (filter p t).
Proof.
  unfold ids_unique. induction t as [|r t IH]; simpl; [tauto|].
  intro H. inversion H as [|? ? Hnot Hnd]; subst.
  destruct (p r); simpl; [|exact (IH Hnd)].
  constructor; [|exact (IH Hnd)].
  intro Hin. apply Hnot. apply in_map_iff in Hin as [y [Hy Hin]].
  apply filter_In in Hin as [Hin _]. rewrite <- Hy. apply in_map. exact Hin.
Qed.

Lemma pres_select (i : N) : Preserves ids_unique (exec (sql_select i)).
Proof. apply pres_exec. intros t t' a H E. injection E as <- _. exact H. Qed.

Lemma pres_get (i : N) : Preserves ids_unique (get_order_by_id i).
Proof. apply pres_try_sql, pres_select. Qed.

Lemma pres_create (o : Order) : Preserves ids_unique (create_order o).
Proof.
  unfold create_order. apply pres_bind; [apply pres_get|].
  intros [x|]; [apply pres_raise|].
  apply pres_bind; [|intro; apply pres_ret].
  apply pres_try_sql, pres_exec. intros t t' a H. unfold sql_insert.
  destruct (existsb (matches (id o)) t) eqn:E; [discriminate|].
  intro Hq. injection Hq as <- _. apply ids_unique_insert; assumption.
Qed.

Lemma pres_update_rows (f : Order -> Order) (i : N) (e : ApiError) :
  (forall r, id (f r) = id r) -> Preserves ids_unique (try_sql (exec (sql_update f i)) e).
Proof.
  intro Hf. apply pres_try_sql, pres_exec. intros t t' a H E.
  injection E as <- _. apply ids_unique_update; assumption.
Qed.

Lemma pres_update (i : N) (body : Order) : Preserves ids_unique (update_order i body).
Proof.
  unfold update_order. apply pres_bind; [apply pres_update_rows; reflexivity|].
  intro rows. destruct (Nat.eqb rows 0); [apply pres_raise | apply pres_ret].
Qed.

Lemma pres_update_status (i : N) (s : rstring) :
  Preserves ids_unique (update_order_status i s).
Proof.
  unfold update_order_status. apply pres_bind; [apply pres_update_rows; reflexivity|].
  intro rows. destruct (Nat.eqb rows 0); [apply pres_raise|].
  apply pres_bind; [apply pres_get|]. intros [x|]; [apply pres_ret | apply pres_raise].
Qed.

Lemma pres_delete (i : N) : Preserves ids_unique (delete_order i).
Proof.
  unfold delete_order. apply pres_bind; [apply pres_get|].
  intros [x|]; [|apply pres_raise].
  apply pres_bind.
  - apply pres_try_sql, pres_exec. intros t t' a H E.
    injection E as <- _. apply ids_unique_filter. exact H.
  - intro rows. destruct (Nat.eqb rows 0); [apply pres_raise | apply pres_ret].
Qed.

Lemma pres_get_all : Preserves ids_unique get_all_orders.
Proof.
  apply pres_try_sql, pres_exec. intros t t' a H E. injection E as <- _. exact H.
Qed.

(** Every handler keeps the ids of the table unique, whatever storage
    faults happen, as long as concurrent requests keep them unique: the
    [PRIMARY KEY] refuses a second row with an existing id even when a
    concurrent create slips between the existence check and the insert. *)
Theorem handlers_keep_ids_unique (env : Env) (t : Table)
    (Henv : forall k t', ids_unique t' -> ids_unique (between env k t'))
    (Ht : ids_unique t) (i : N) (o : Order) (s : rstring) :
  ids_unique (tbl (fst (run env get_orders t))) /\
  ids_unique (tbl (fst (run env (add_order o) t))) /\
  ids_unique (tbl (fst (run env (get_order_by_id_handler i) t))) /\
  ids_unique (tbl (fst (run env (update_order_by_id i o) t))) /\
  ids_unique (tbl (fst (run env (update_order_status_handler i s) t))) /\
  ids_unique (tbl (fst (run env (delete_order_by_id i) t))).
Proof.
  unfold run. repeat split.
  - exact (pres_get_all env Henv (mkSt t 0) Ht).
  - refine (pres_bind _ _ _ (pres_check _ _) (fun _ => pres_create o) env Henv (mkSt t 0) Ht).
  - refine (pres_bind _ _ _ (pres_get i) _ env Henv (mkSt t 0) Ht).
    intros [x|]; [apply pres_ret | apply pres_raise].
  - refine (pres_bind _ _ _ (pres_check _ _) (fun _ => pres_update i o) env Henv (mkSt t 0) Ht).
  - refine (pres_bind _ _ _ (pres_check _ _) (fun _ => pres_update_status i s) env Henv (mkSt t 0) Ht).
  - exact (pres_delete i env Henv (mkSt t 0) Ht).
Qed.

Lemma handlers_keep_ids_unique_witness :
  ((forall k t', ids_unique t' -> ids_unique (between quiet k t')) /\ ids_unique [sample]) /\
  ids_unique (tbl (fst (run quiet get_orders [sample]))) /\
  ids_unique (tbl (fst (run quiet (add_order sample) [sample]))) /\
  ids_unique (tbl (fst (run quiet (get_order_by_id_handler 1) [sample]))) /\
  ids_unique (tbl (fst (run quiet (update_order_by_id 1 sample) [sample]))) /\
  ids_unique (tbl (fst (run quiet (update_order_status_handler 1 (lit "shipped")) [sample]))) /\
  ids_unique (tbl (fst (run quiet (delete_order_by_id 1) [sample]))).
Proof.
  split; [split; [intros k t' H; exact H | constructor; [intros [] | constructor]]|].
  apply (handlers_keep_ids_unique quiet [sample]);
    [intros k t' H; exact H | constructor; [intros [] | constructor]].
Defined.

(** ** Storage faults *)

(** When the first statement of a store operation fails at the storage
    layer, the operation fails with a [Server] error "Database error"
    carrying a message specific to the operation, and the table is left
    as it was. *)
Theorem storage_fault_messages (env : Env) (t : Table) (i : N) (o : Order)
    (s : rstring) (Hf : fault env 0 = true) :
  run env get_all_orders t = (mkSt t 1, Err (db_error "Failed to retrieve orders")) /\
  run env (get_order_by_id i) t = (mkSt t 1, Err (db_error "Failed to retrieve order")) /\
  run env (create_order o) t = (mkSt t 1, Err (db_error "Failed to retrieve order")) /\
  run env (update_order i o) t = (mkSt t 1, Err (db_error "Failed to update order")) /\
  run env (update_order_status i s) t
    = (mkSt t 1, Err (db_error "Failed to update order status")) /\
  run env (delete_order i) t = (mkSt t 1, Err (db_error "Failed to retrieve order")).
Proof. run_op. rewrite Hf. repeat split. Qed.

(** A storage fault on the [DELETE] after a successful read is reported as
    "Failed to delete order" and the row stays. *)
Theorem delete_fault_keeps_row (env : Env) (t : Table) (i : N) (o : Order)
    (Hf0 : fault env 0 = false) (Hf1 : fault env 1 = true)
    (Hi : no_interference env) (Hfind : find (matches i) t = Some o) :
  run env (delete_order i) t = (mkSt t 2, Err (db_error "Failed to delete order")).
Proof.
  run_op. rewrite Hf0. unfold sql_select. rewrite Hfind. cbn.
  rewrite Hf1, (Hi 1). reflexivity.
Qed.

(** The environment in which only the second statement of an operation
    fails. *)
Definition second_statement_fails : Env :=
  mkEnv (fun k => Nat.eqb k 1) (fun _ t => t).

Lemma storage_fault_messages_witness :
  fault (mkEnv (fun _ => true) (fun _ t => t)) 0 = true /\
  run (mkEnv (fun _ => true) (fun _ t => t)) (delete_order 1) [sample]
    = (mkSt [sample] 1, Err (db_error "Failed to retrieve order")).
Proof.
  split; [reflexivity|].
  apply (storage_fault_messages (mkEnv (fun _ => true) (fun _ t => t)) [sample] 1 sample
           (lit "shipped") eq_refl).
Defined.

Lemma delete_fault_keeps_row_witness :
  (fault second_statement_fails 0 = false /\ fault second_statement_fails 1 = true /\
   no_interference second_statement_fails /\ find (matches 1) [sample] = Some sample) /\
  run second_statement_fails (delete_order 1) [sample]
    = (mkSt [sample] 2, Err (db_error "Failed to delete order")).
Proof.
  split; [split; [reflexivity | split; [reflexivity | split; [intros k t; reflexivity | reflexivity]]]|].
  apply (delete_fault_keeps_row second_statement_fails [sample] 1 sample);
    [reflexivity | reflexivity | intros k t; reflexivity | reflexivity].
Defined.

(** ** Races between two statements of one operation *)

(** When a concurrent request inserts a row with id [id o] between the
    existence check of [create_order o] and its [INSERT], the [PRIMARY KEY]
    refuses the insert: the create fails with the [Server] error "Failed to
    create order" (not the [Validation] duplicate error), and the
    concurrent row stays. *)
Theorem create_race_server_error (env : Env) (t : Table) (o : Order)
    (Hf : no_faults env) (Hnew : forall x, In x t -> id x <> id o)
    (Hrace : exists x, In x (between env 1 t) /\ id x = id o) :
  run env (create_order o) t
    = (mkSt (between env 1 t) 2, Err (db_error "Failed to create order")).
Proof.
  run_op. rewrite (Hf 0). unfold sql_select. rewrite (find_absent _ _ Hnew). cbn.
  rewrite (Hf 1). unfold sql_insert.
  destruct Hrace as [x [Hx Hid]].
  replace (existsb (matches (id o)) (between env 1 t)) with true; [reflexivity|].
  symmetry. apply existsb_exists. exists x. split; [exact Hx | apply matches_true; exact Hid].
Qed.

(** A concurrent request that creates order 1. *)
Definition racing_create : Env :=
  mkEnv (fun _ => false) (fun _ t => app t [mkOrder 1 (lit "Other") (lit "pending") 2]).

Lemma create_race_server_error_witness :
  (no_faults racing_create /\ (forall x, In x [] -> id x <> id sample) /\
   (exists x, In x (between racing_create 1 []) /\ id x = id sample)) /\
  run racing_create (create_order sample) []
    = (mkSt (between racing_create 1 []) 2, Err (db_error "Failed to create order")).
Proof.
  assert (H : exists x, In x (between racing_create 1 []) /\ id x = id sample)
    by (eexists; split; [left; reflexivity | reflexivity]).
  split; [split; [intro k; reflexivity | split; [intros x [] | exact H]]|].
  apply (create_race_server_error racing_create [] sample);
    [intro k; reflexivity | intros x [] | exact H].
Defined.

(** When the row is removed by a concurrent request between the [UPDATE] of
    [update_order_status] and its re-read, the operation fails with
    [NotFound "Order not found"] even though its [UPDATE] matched a row. *)
Theorem update_status_race_not_found (env : Env) (t : Table) (i : N)
    (s : rstring) (o : Order) (Hf : no_faults env)
    (Hfind : find (matches i) t = Some o)
    (Hgone : forall t', forall x, In x (between env 1 t') -> id x <> i) :
  snd (run env (update_order_status i s) t) = Err (NotFound "Order not found").
Proof.
  run_op. rewrite (Hf 0). unfold sql_update.
  destruct (Nat.eqb_spec (List.length (filter (matches i) t)) 0) as [E|_].
  { exfalso. exact (find_count _ _ _ Hfind E). }
  cbn. rewrite (Hf 1). unfold sql_select.
  rewrite (find_absent _ _ (Hgone _)). reflexivity.
Qed.

Lemma update_status_race_not_found_witness :
  (no_faults racing_delete /\ find (matches 1) [sample] = Some sample /\
   (forall t', forall x, In x (between racing_delete 1 t') -> id x <> 1%N)) /\
  snd (run racing_delete (update_order_status 1 (lit "shipped")) [sample])
    = Err (NotFound "Order not found").
Proof.
  assert (H : forall t', forall x, In x (between racing_delete 1 t') -> id x <> 1%N).
  { intros t' x Hx. simpl in Hx. apply filter_In in Hx as [_ Hx].
    apply negb_true_iff, matches_false in Hx. exact Hx. }
  split; [split; [intro k; reflexivity | split; [reflexivity | exact H]]|].
  apply (update_status_race_not_found racing_delete [sample] 1 (lit "shipped") sample);
    [intro k; reflexivity | reflexivity | exact H].
Defined.

(** ** Handlers *)

(** The handlers that validate their input run no statement when the
    validation fails: the table is untouched and the validation error is
    returned as an [ApiError::Validation]. *)
Theorem validation_runs_no_statement (env : Env) (t : Table) (i : N)
    (o : Order) (s : rstring) (e e' : ValidationError)
    (Ho : validate_order o = Err e) (Hs : validate_status s = Err e') :
  run env (add_order o) t = (mkSt t 0, Err (Validation e)) /\
  run env (update_order_by_id i o) t = (mkSt t 0, Err (Validation e)) /\
  run env (update_order_status_handler i s) t = (mkSt t 0, Err (Validation e')).
Proof. run_op. rewrite Ho, Hs. repeat split. Qed.

Lemma validation_runs_no_statement_witness :
  let o := mkOrder 1 (lit "Box") (lit "pending") 0 in
  let e := mkValidationError "Quantity must be greater than 0" (Some "quantity") in
  (validate_order o = Err e /\ validate_status (lit "Pending") = Err status_error) /\
  run quiet (update_order_status_handler 1 (lit "Pending")) [sample]
    = (mkSt [sample] 0, Err (Validation status_error)).
Proof.
  intros o e. split; [split; reflexivity|].
  apply (validation_runs_no_statement quiet [sample] 1 o (lit "Pending") e status_error);
    reflexivity.
Defined.

Lemma get_orders_lists (env : Env) (t : Table) (Hf : no_faults env) :
  exists l, run env get_orders t = (mkSt t 1, Ok l) /\ (forall x, In x l <-> In x t).
Proof. exists t. run_op. rewrite (Hf 0). split; [reflexivity | tauto]. Qed.

(** [POST /orders] followed by [GET /orders]: with the store working and no
    concurrent writer, a valid order with a fresh id is stored and returned
    unchanged, and the listing then holds exactly the earlier rows and the
    new order. *)
Theorem add_then_list (env : Env) (t : Table) (o : Order)
    (Hf : no_faults env) (Hi : no_interference env)
    (Hv : validate_order o = Ok tt) (Hnew : forall x, In x t -> id x <> id o) :
  run env (add_order o) t = (mkSt (app t [o]) 2, Ok o) /\
  exists l, snd (run env get_orders (app t [o])) = Ok l /\
            (forall x, In x l <-> In x t \/ x = o).
Proof.
  split.
  - run_op. rewrite Hv. cbn. rewrite (Hf 0). unfold sql_select.
    rewrite (find_absent _ _ Hnew). cbn.
    rewrite (Hf 1), (Hi 1). unfold sql_insert.
    rewrite (existsb_absent _ _ Hnew). reflexivity.
  - destruct (get_orders_lists env (app t [o]) Hf) as [l [Hl Hin]].
    exists l. rewrite Hl. split; [reflexivity|].
    intro x. rewrite Hin, in_app_iff. simpl. split.
    + intros [H|[H|[]]]; [left; exact H | right; symmetry; exact H].
    + intros [H|H]; [left; exact H | right; left; symmetry; exact H].
Qed.

Lemma add_then_list_witness :
  let o := mkOrder 2 (lit "Box") (lit "shipped") 3 in
  (no_faults quiet /\ no_interference quiet /\ validate_order o = Ok tt /\
   (forall x, In x [sample] -> id x <> id o)) /\
  run quiet (add_order o) [sample] = (mkSt (app [sample] [o]) 2, Ok o).
Proof.
  intro o.
  assert (Hn : forall x, In x [sample] -> id x <> id o) by (intros x [<-|[]]; discriminate).
  split; [split; [intro k; reflexivity | split; [intros k t; reflexivity | split; [reflexivity | exact Hn]]]|].
  exact (proj1 (add_then_list quiet [sample] o (fun k => eq_refl) (fun k t => eq_refl)
                  eq_refl Hn)).
Defined.

Lemma find_update_other (i j : N) (f : Order -> Order) (t : Table) :
  (forall r, id (f r) = id r) -> j <> i ->
  find (matches j) (map (fun r => if matches i r then f r else r) t)
  = find (matches j) t.
Proof.
  intros Hf Hji. induction t as [|r t IH]; simpl; [reflexivity|].
  destruct (matches i r) eqn:E; [|rewrite IH; reflexivity].
  apply matches_true in E.
  assert (Hr : matches j r = false) by (apply matches_false; congruence).
  assert (Hfr : matches j (f r) = false) by (apply matches_false; rewrite Hf; congruence).
  rewrite Hr, Hfr. exact IH.
Qed.

(** [PUT /orders/{i}] followed by [GET]s: with the store working, no
    concurrent writer and unique ids, a valid body updates the stored order
    of id [i]; a [GET /orders/{i}] then returns the body with id [i], and a
    [GET] of any other id returns what it returned before. *)
Theorem put_then_get (env : Env) (t : Table) (i : N) (body o : Order)
    (Hf : no_faults env) (Hi : no_interference env) (Hnd : ids_unique t)
    (Hin : In o t) (Hid : id o = i) (Hv : validate_order body = Ok tt) :
  exists st',
    run env (update_order_by_id i body) t
      = (st', Ok (mkOrder i (item body) (status body) (quantity body))) /\
    snd (run env (get_order_by_id_handler i) (tbl st'))
      = Ok (mkOrder i (item body) (status body) (quantity body)) /\
    (forall j, j <> i ->
       snd (run env (get_order_by_id j) (tbl st')) = snd (run env (get_order_by_id j) t)).
Proof.
  subst i. pose proof (find_unique t o Hnd Hin) as Hfind.
  eexists. split; [|split].
  - run_op. rewrite Hv. cbn. rewrite (Hf 0). unfold sql_update.
    destruct (Nat.eqb_spec (List.length (filter (matches (id o)) t)) 0) as [E|_].
    { exfalso. exact (find_count _ _ _ Hfind E). }
    reflexivity.
  - run_op. rewrite (Hf 0). unfold sql_select.
    change (fun r => if matches (id o) r
                     then mkOrder (id r) (item body) (status body) (quantity body) else r)
      with (fun r => if matches (id o) r then set_fields body r else r).
    rewrite (find_update (id o) (set_fields body) t (fun r => eq_refl)), Hfind.
    unfold set_fields. reflexivity.
  - intros j Hj. run_op. rewrite !(Hf 0). unfold sql_select.
    change (fun r => if matches (id o) r
                     then mkOrder (id r) (item body) (status body) (quantity body) else r)
      with (fun r => if matches (id o) r then set_fields body r else r).
    rewrite (find_update_other (id o) j (set_fields body) t (fun r => eq_refl) Hj).
    reflexivity.
Qed.

Lemma put_then_get_witness :
  let body := mkOrder 7 (lit "Updated Item") (lit "processing") 2 in
  (no_faults quiet /\ no_interference quiet /\ ids_unique [sample] /\
   In sample [sample] /\ id sample = 1%N /\ validate_order body = Ok tt) /\
  exists st',
    run quiet (update_order_by_id 1 body) [sample]
      = (st', Ok (mkOrder 1 (item body) (status body) (quantity body))) /\
    snd (run quiet (get_order_by_id_handler 1) (tbl st'))
      = Ok (mkOrder 1 (item body) (status body) (quantity body)) /\
    (forall j, j <> 1%N ->
       snd (run quiet (get_order_by_id j) (tbl st')) = snd (run quiet (get_order_by_id j) [sample])).
Proof.
  intro body.
  assert (Hnd : ids_unique [sample]) by (constructor; [intros [] | constructor]).
  split.
  { split; [intro k; reflexivity|]. split; [intros k t; reflexivity|].
    split; [exact Hnd|]. split; [left; reflexivity|]. split; reflexivity. }
  apply (put_then_get quiet [sample] 1 body sample (fun k => eq_refl) (fun k t => eq_refl)
           Hnd (or_introl eq_refl) eq_refl eq_refl).
Defined.

(** After a successful delete of id [i], with the store working and no
    concurrent writer, creating an order with id [i] succeeds again. *)
Theorem delete_then_recreate (env : Env) (t : Table) (i : N) (st' : St)
    (old o : Order) (Hf : no_faults env) (Hi : no_interference env)
    (Hdel : run env (delete_order i) t = (st', Ok old)) (Hid : id o = i) :
  run env (create_order o) (tbl st') = (mkSt (app (tbl st') [o]) 2, Ok o).
Proof.
  assert (Hgone : forall x, In x (tbl st') -> id x <> i).
  { revert Hdel. run_op. rewrite (Hf 0). unfold sql_select.
    destruct (find (matches i) t); [|discriminate]. cbn.
    rewrite (Hf 1), (Hi 1). unfold sql_delete.
    destruct (Nat.eqb (List.length (filter (matches i) t)) 0); [discriminate|].
    intro H. injection H as <- _. intros x Hx. cbn [tbl] in Hx.
    apply filter_In in Hx as [_ Hx]. apply negb_true_iff, matches_false in Hx. exact Hx. }
  subst i. run_op. rewrite (Hf 0). unfold sql_select.
  rewrite (find_absent _ _ Hgone). cbn.
  rewrite (Hf 1), (Hi 1). unfold sql_insert.
  rewrite (existsb_absent _ _ Hgone). reflexivity.
Qed.

Lemma delete_then_recreate_witness :
  (no_faults quiet /\ no_interference quiet /\
   run quiet (delete_order 1) [sample] = (mkSt [] 2, Ok sample) /\ id sample = 1%N) /\
  run quiet (create_order sample) [] = (mkSt (app [] [sample]) 2, Ok sample).
Proof.
  split.
  { split; [intro k; reflexivity|]. split; [intros k t; reflexivity|].
    split; reflexivity. }
  exact (delete_then_recreate quiet [sample] 1 (mkSt [] 2) sample sample
           (fun k => eq_refl) (fun k t => eq_refl) eq_refl eq_refl).
Defined.

Lemma validate_status_exact_witness :
  ~ In (lit "Shipped") (map lit valid_statuses) /\
  validate_status (lit "Shipped") = Err status_error.
Proof.
  assert (H : ~ In (lit "Shipped") (map lit valid_statuses))
    by (simpl; intros [H|[H|[H|[H|[H|[]]]]]]; discriminate H).
  split; [exact H|].
  exact (proj2 (validate_status_exact (lit "Shipped")) H).
Defined.
